(** * The PDFium binding surface of [Vendor/PDFium/include/fpdfview.h]

    The header is purely declarative: four typedefs, sixteen function
    prototypes and two anonymous enumerations.  The first part of this
    development embeds exactly that declarative content (C types, the
    prototypes, the enumerators) and proves the facts that follow from the
    declarations alone.  The second part is a state-passing model of the
    operations behind the prototypes; their bodies live in the wrapped
    native library, so every definition of that part is marked as modelled
    from the specification. *)

From Stdlib Require Import ZArith Lia.
From stdpp Require Import gmap strings list fin_maps.

Local Open Scope Z_scope.

(** ** C types and the declarations of the header *)

Module Decl.

(** The C types that occur in the header. *)
Inductive ctype : Type :=
  | Tvoid
  | Tchar
  | Tint
  | Tuint
  | Tulong
  | Tsize_t
  | Tfloat
  | Tconst (t : ctype)
  | Tptr (pointee : ctype).

(** [typedef const char* FPDF_BYTESTRING;] and the three opaque handles,
    each a [void*]. *)
Definition FPDF_BYTESTRING : ctype := Tptr (Tconst Tchar).
Definition FPDF_DOCUMENT : ctype := Tptr Tvoid.
Definition FPDF_PAGE : ctype := Tptr Tvoid.
Definition FPDF_BITMAP : ctype := Tptr Tvoid.

Record prototype : Type := Prototype {
  fn_ret : ctype;
  fn_params : list (string * ctype)
}.

Definition FPDF_InitLibrary : prototype := Prototype Tvoid [].
Definition FPDF_DestroyLibrary : prototype := Prototype Tvoid [].

Definition FPDF_LoadMemDocument64 : prototype :=
  Prototype FPDF_DOCUMENT
    [("data_buf", Tptr (Tconst Tvoid)); ("size", Tsize_t);
     ("password", FPDF_BYTESTRING)]%string.
Definition FPDF_CloseDocument : prototype :=
  Prototype Tvoid [("document", FPDF_DOCUMENT)]%string.
Definition FPDF_GetPageCount : prototype :=
  Prototype Tint [("document", FPDF_DOCUMENT)]%string.
Definition FPDF_LoadPage : prototype :=
  Prototype FPDF_PAGE [("document", FPDF_DOCUMENT); ("page_index", Tint)]%string.
Definition FPDF_ClosePage : prototype :=
  Prototype Tvoid [("page", FPDF_PAGE)]%string.
Definition FPDF_GetPageWidthF : prototype :=
  Prototype Tfloat [("page", FPDF_PAGE)]%string.
Definition FPDF_GetPageHeightF : prototype :=
  Prototype Tfloat [("page", FPDF_PAGE)]%string.
Definition FPDF_GetLastError : prototype := Prototype Tulong [].

Definition FPDFBitmap_CreateEx : prototype :=
  Prototype FPDF_BITMAP
    [("width", Tint); ("height", Tint); ("format", Tint);
     ("first_scan", Tptr Tvoid); ("stride", Tint)]%string.
Definition FPDFBitmap_Destroy : prototype :=
  Prototype Tvoid [("bitmap", FPDF_BITMAP)]%string.
Definition FPDFBitmap_GetBuffer : prototype :=
  Prototype (Tptr Tvoid) [("bitmap", FPDF_BITMAP)]%string.
Definition FPDFBitmap_GetStride : prototype :=
  Prototype Tint [("bitmap", FPDF_BITMAP)]%string.
Definition FPDFBitmap_FillRect : prototype :=
  Prototype Tvoid
    [("bitmap", FPDF_BITMAP); ("left", Tint); ("top", Tint);
     ("width", Tint); ("height", Tint); ("color", Tuint)]%string.

Definition FPDF_RenderPageBitmap : prototype :=
  Prototype Tvoid
    [("bitmap", FPDF_BITMAP); ("page", FPDF_PAGE);
     ("start_x", Tint); ("start_y", Tint);
     ("size_x", Tint); ("size_y", Tint);
     ("rotate", Tint); ("flags", Tint)]%string.

(** The declared type of a named parameter. *)
Fixpoint assoc (x : string) (l : list (string * ctype)) : option ctype :=
  match l with
  | [] => None
  | (y, t) :: l' => if String.eqb x y then Some t else assoc x l'
  end.

Definition param_type (p : prototype) (x : string) : option ctype :=
  assoc x (fn_params p).

(** The header fixes no width for [int], [unsigned long] or [size_t]; that
    is the choice of the target's data model.  The three data models of the
    platforms the library is built for agree on a 32-bit [int]. *)
Inductive data_model : Type := ILP32 | LP64 | LLP64.

Definition int_bits (dm : data_model) : Z := 32.
Definition long_bits (dm : data_model) : Z :=
  match dm with LP64 => 64 | ILP32 | LLP64 => 32 end.
Definition size_t_bits (dm : data_model) : Z :=
  match dm with ILP32 => 32 | LP64 | LLP64 => 64 end.

(** The interval of values of an integer type, [None] for the others. *)
Definition int_range (dm : data_model) (t : ctype) : option (Z * Z) :=
  match t with
  | Tint => Some (- 2 ^ (int_bits dm - 1), 2 ^ (int_bits dm - 1) - 1)
  | Tuint => Some (0, 2 ^ int_bits dm - 1)
  | Tulong => Some (0, 2 ^ long_bits dm - 1)
  | Tsize_t => Some (0, 2 ^ size_t_bits dm - 1)
  | _ => None
  end.

Definition representable (dm : data_model) (t : ctype) (v : Z) : bool :=
  match int_range dm t with
  | Some (lo, hi) => (lo <=? v) && (v <=? hi)
  | None => false
  end.

(** Every function the header declares, in declaration order. *)
Definition declarations : list (string * prototype) :=
  [("FPDF_InitLibrary", FPDF_InitLibrary);
   ("FPDF_DestroyLibrary", FPDF_DestroyLibrary);
   ("FPDF_LoadMemDocument64", FPDF_LoadMemDocument64);
   ("FPDF_CloseDocument", FPDF_CloseDocument);
   ("FPDF_GetPageCount", FPDF_GetPageCount);
   ("FPDF_LoadPage", FPDF_LoadPage);
   ("FPDF_ClosePage", FPDF_ClosePage);
   ("FPDF_GetPageWidthF", FPDF_GetPageWidthF);
   ("FPDF_GetPageHeightF", FPDF_GetPageHeightF);
   ("FPDF_GetLastError", FPDF_GetLastError);
   ("FPDFBitmap_CreateEx", FPDFBitmap_CreateEx);
   ("FPDFBitmap_Destroy", FPDFBitmap_Destroy);
   ("FPDFBitmap_GetBuffer", FPDFBitmap_GetBuffer);
   ("FPDFBitmap_GetStride", FPDFBitmap_GetStride);
   ("FPDFBitmap_FillRect", FPDFBitmap_FillRect);
   ("FPDF_RenderPageBitmap", FPDF_RenderPageBitmap)]%string.

(** A type whose set of values is the same in every data model. *)
Definition model_independent (t : ctype) : Prop :=
  forall dm1 dm2, int_range dm1 t = int_range dm2 t.

Definition all_data_models : list data_model := [ILP32; LP64; LLP64].

End Decl.

(** ** The two anonymous enumerations *)

(** [enum { FPDFBitmap_Unknown = 0, ..., FPDFBitmap_BGRA = 4 };]
    An anonymous C enumeration introduces [int] constants. *)
Definition FPDFBitmap_Unknown : Z := 0.
Definition FPDFBitmap_Gray : Z := 1.
Definition FPDFBitmap_BGR : Z := 2.
Definition FPDFBitmap_BGRx : Z := 3.
Definition FPDFBitmap_BGRA : Z := 4.

(** The enumerator list of the first [enum] block, in declaration order. *)
Definition pixel_format_enum : list (string * Z) :=
  [("FPDFBitmap_Unknown", FPDFBitmap_Unknown);
   ("FPDFBitmap_Gray", FPDFBitmap_Gray);
   ("FPDFBitmap_BGR", FPDFBitmap_BGR);
   ("FPDFBitmap_BGRx", FPDFBitmap_BGRx);
   ("FPDFBitmap_BGRA", FPDFBitmap_BGRA)]%string.

(** [enum { FPDF_ANNOT = 0x01 };] *)
Definition FPDF_ANNOT : Z := 0x01.

(** The enumerator list of the second [enum] block. *)
Definition render_flag_enum : list (string * Z) :=
  [("FPDF_ANNOT", FPDF_ANNOT)]%string.

(** Whether [z] is the value of an enumerator of [e]. *)
Definition enum_member (e : list (string * Z)) (z : Z) : bool :=
  existsb (Z.eqb z) (map snd e).

(** The value an enumeration gives to a name. *)
Fixpoint enum_value (e : list (string * Z)) (x : string) : option Z :=
  match e with
  | [] => None
  | (y, v) :: e' => if String.eqb x y then Some v else enum_value e' x
  end.

(** ** State-passing model of the operations behind the prototypes *)

(** A handle is a [void*]; the null pointer is address 0. *)
Definition NULL : Z := 0.

(** Modelled from the spec: how the native library picks the address of a
    new handle is missing from the header.  The spec only says that a
    successful call yields a handle, as opposed to null; the model hands out
    an address that is neither null nor a live handle of the same kind. *)
Definition fresh_handle (live : gset Z) : Z := fresh ({[NULL]} ∪ live).

(** Modelled from the spec: the causes of a load failure named by the spec
    (bad format, wrong password, corruption); the header has no names for
    them. *)
Inductive load_failure : Type := BadFormat | WrongPassword | Corruption.

Definition all_load_failures : list load_failure :=
  [BadFormat; WrongPassword; Corruption].

(** Modelled from the spec: what a bitmap handle stands for is missing from
    the header.  It "wraps a caller-provided pixel buffer (external
    ownership) plus width, height, pixel format and row stride": the
    arguments of [FPDFBitmap_CreateEx], in the order of its prototype. *)
Record bitmap_info : Type := BitmapInfo {
  bm_width : Z;
  bm_height : Z;
  bm_format : Z;
  bm_first_scan : Z;
  bm_stride : Z
}.

(** Modelled from the spec: the numeric codes of the load failures are
    missing; the header declares only the [unsigned long] that carries them.
    The spec calls the code implementation-defined, requires it to be
    nonzero and has the caller retrieve the cause from it; the model gives
    each cause a nonzero code of its own. *)
Definition error_code (c : load_failure) : Z :=
  match c with BadFormat => 1 | WrongPassword => 2 | Corruption => 3 end.

(** Modelled from the spec: the value [FPDF_GetPageCount] returns on an
    invalid document is missing; the header declares only the [int] that
    carries it.  The spec calls it a negative or zero sentinel; the model
    answers 0. *)
Definition invalid_page_count : Z := 0.

Section Binding.

(** What the engine knows about one page; opaque at this boundary. *)
Variable page_content : Type.

(** Modelled from the spec: the parser of the native library is missing.
    On the bytes and the optional password it either fails with a cause or
    yields the pages of the document. *)
Variable engine_parse :
  list Byte.byte -> option string -> load_failure + list page_content.

(** Modelled from the spec: the state of the native library is missing.
    The calls act on the live handles of each kind, the process-wide
    last-error code, and the memory blocks owned by the caller (base address
    to contents).  A block absent from [caller_memory] has been freed. *)
Record world : Type := World {
  documents : gmap Z (list page_content);
  pages : gmap Z page_content;
  bitmaps : gmap Z bitmap_info;
  last_error : Z;
  caller_memory : gmap Z (list Byte.byte)
}.

Definition initial_world (mem : gmap Z (list Byte.byte)) : world :=
  World ∅ ∅ ∅ 0 mem.

Definition set_documents (w : world) (d : gmap Z (list page_content)) : world :=
  World d (pages w) (bitmaps w) (last_error w) (caller_memory w).
Definition set_pages (w : world) (p : gmap Z page_content) : world :=
  World (documents w) p (bitmaps w) (last_error w) (caller_memory w).
Definition set_bitmaps (w : world) (b : gmap Z bitmap_info) : world :=
  World (documents w) (pages w) b (last_error w) (caller_memory w).
Definition set_last_error (w : world) (e : Z) : world :=
  World (documents w) (pages w) (bitmaps w) e (caller_memory w).

(** Modelled from the spec: the body of [FPDF_LoadMemDocument64] is
    missing.  "Document handle or null; null signals load failure [...] the
    specific cause is retrieved via a separate last-error query".  [data]
    is the [size] bytes at [data_buf]. *)
Definition FPDF_LoadMemDocument64
    (w : world) (data : list Byte.byte) (password : option string)
  : Z * world :=
  match engine_parse data password with
  | inl cause => (NULL, set_last_error w (error_code cause))
  | inr doc =>
      let h := fresh_handle (dom (documents w)) in
      (h, set_documents w (<[h := doc]> (documents w)))
  end.

(** Modelled from the spec: the body of [FPDF_GetLastError] is missing.
    "A process-wide, implementation-defined numeric code set on failure and
    readable on demand." *)
Definition FPDF_GetLastError (w : world) : Z := last_error w.

(** Modelled from the spec: the body of [FPDF_CloseDocument] is missing.
    The handle is invalidated by the call. *)
Definition FPDF_CloseDocument (w : world) (document : Z) : world :=
  set_documents w (delete document (documents w)).

(** Modelled from the spec: the body of [FPDF_GetPageCount] is missing.
    "Integer >= 0, or a negative/zero sentinel on invalid input." *)
Definition FPDF_GetPageCount (w : world) (document : Z) : Z :=
  match documents w !! document with
  | Some doc => Z.of_nat (length doc)
  | None => invalid_page_count
  end.

(** Modelled from the spec: the body of [FPDF_LoadPage] is missing.
    "Page handle or null if index out of range", the index being
    zero-based. *)
Definition FPDF_LoadPage (w : world) (document : Z) (page_index : Z)
  : Z * world :=
  match documents w !! document with
  | Some doc =>
      if page_index <? 0 then (NULL, w)
      else match doc !! Z.to_nat page_index with
           | Some p =>
               let h := fresh_handle (dom (pages w)) in
               (h, set_pages w (<[h := p]> (pages w)))
           | None => (NULL, w)
           end
  | None => (NULL, w)
  end.

(** Modelled from the spec: the body of [FPDF_ClosePage] is missing.
    "Releases page-level resources only." *)
Definition FPDF_ClosePage (w : world) (page : Z) : world :=
  set_pages w (delete page (pages w)).

(** Modelled from the spec: the body of [FPDFBitmap_CreateEx] is missing.
    The handle wraps the caller's buffer pointer with the width, height,
    pixel format and row stride; the pixel memory stays the caller's. *)
Definition FPDFBitmap_CreateEx
    (w : world) (width height format first_scan stride : Z) : Z * world :=
  let h := fresh_handle (dom (bitmaps w)) in
  (h, set_bitmaps w
        (<[h := BitmapInfo width height format first_scan stride]> (bitmaps w))).

(** Modelled from the spec: the body of [FPDFBitmap_Destroy] is missing.
    "Releases the handle only; never frees caller-supplied pixel memory." *)
Definition FPDFBitmap_Destroy (w : world) (bitmap : Z) : world :=
  set_bitmaps w (delete bitmap (bitmaps w)).

(** Modelled from the spec: the bodies of the two read accessors are
    missing.  They expose "the caller's own buffer back"; on a handle that
    is not live the model answers null and 0. *)
Definition FPDFBitmap_GetBuffer (w : world) (bitmap : Z) : Z :=
  match bitmaps w !! bitmap with
  | Some b => bm_first_scan b
  | None => NULL
  end.

Definition FPDFBitmap_GetStride (w : world) (bitmap : Z) : Z :=
  match bitmaps w !! bitmap with
  | Some b => bm_stride b
  | None => 0
  end.

(** Reading a last-error code back into the cause it stands for. *)
Definition cause_of_code (code : Z) : option load_failure :=
  find (fun c => error_code c =? code) all_load_failures.

(** ** Facts about the model *)

Lemma fresh_handle_nonnull (live : gset Z) : fresh_handle live <> NULL.
Proof.
  unfold fresh_handle. intros Heq.
  apply (is_fresh ({[NULL]} ∪ live)). rewrite Heq. set_solver.
Qed.

Lemma fresh_handle_not_live (live : gset Z) : fresh_handle live ∉ live.
Proof.
  unfold fresh_handle. intros Hin.
  apply (is_fresh ({[NULL]} ∪ live)). set_solver.
Qed.

(** A list has an element at a non-negative index exactly below its length. *)
Lemma lookup_index_in_range {A} (l : list A) (i : Z) :
  0 <= i -> is_Some (l !! Z.to_nat i) <-> i < Z.of_nat (length l).
Proof.
  intros Hi. rewrite lookup_lt_is_Some. lia.
Qed.

(** The page count of a live document is the number of pages the parser
    produced for it. *)
Lemma FPDF_GetPageCount_live w document doc :
  documents w !! document = Some doc ->
  FPDF_GetPageCount w document = Z.of_nat (length doc).
Proof. intros Hdoc. unfold FPDF_GetPageCount. by rewrite Hdoc. Qed.

(** A successful load makes the new handle live, with the parsed pages. *)
Lemma FPDF_LoadMemDocument64_live w data password doc :
  engine_parse data password = inr doc ->
  let r := FPDF_LoadMemDocument64 w data password in
  documents r.2 !! r.1 = Some doc /\
  FPDF_GetPageCount r.2 r.1 = Z.of_nat (length doc).
Proof.
  intros Hparse r. subst r. unfold FPDF_LoadMemDocument64. rewrite Hparse.
  cbn.
  assert (Hlive : forall h,
    documents (set_documents w (<[h := doc]> (documents w))) !! h = Some doc).
  { intros h. cbn. apply lookup_insert_eq. }
  split; [apply Hlive|]. apply FPDF_GetPageCount_live, Hlive.
Qed.

(** Creating a bitmap and destroying it again restores the handle table:
    the new handle was not live before. *)
Lemma FPDFBitmap_Create_Destroy w width height format first_scan stride :
  let r := FPDFBitmap_CreateEx w width height format first_scan stride in
  FPDFBitmap_Destroy r.2 r.1 = w.
Proof.
  cbn. unfold FPDFBitmap_Destroy, set_bitmaps. cbn.
  rewrite delete_insert_id.
  - by destruct w.
  - apply not_elem_of_dom, fresh_handle_not_live.
Qed.

(** ** The claims about the operations *)

(** C2. For every loaded document and every index, [FPDF_LoadPage] returns a
    non-null page handle if and only if the index is at least 0 and below
    the page count reported by [FPDF_GetPageCount]; for an index below 0 or
    at or above the page count it returns null. *)
Theorem FPDF_LoadPage_nonnull_iff_in_range w document doc page_index :
  documents w !! document = Some doc ->
  ((FPDF_LoadPage w document page_index).1 <> NULL <->
   0 <= page_index < FPDF_GetPageCount w document) /\
  (page_index < 0 \/ FPDF_GetPageCount w document <= page_index ->
   (FPDF_LoadPage w document page_index).1 = NULL).
Proof.
  intros Hdoc. rewrite (FPDF_GetPageCount_live _ _ _ Hdoc).
  unfold FPDF_LoadPage. rewrite Hdoc.
  destruct (Z.ltb_spec page_index 0) as [Hneg|Hpos]; cbn.
  - split; [split; [congruence | lia] | reflexivity].
  - pose proof (lookup_index_in_range doc page_index Hpos) as Hrange.
    destruct (doc !! Z.to_nat page_index) as [p|] eqn:Hp; cbn.
    + assert (page_index < Z.of_nat (length doc)) as Hlt
        by (apply Hrange; eauto).
      split.
      * split; [lia | intros _; apply fresh_handle_nonnull].
      * lia.
    + assert (~ page_index < Z.of_nat (length doc)) as Hge.
      { intros Hlt. apply Hrange in Hlt. by destruct Hlt. }
      split; [split; [congruence | lia] | reflexivity].
Qed.


(** The cause is recovered from its code, the codes being distinct. *)
Lemma cause_of_code_error_code (c : load_failure) :
  cause_of_code (error_code c) = Some c.
Proof. destruct c; reflexivity. Qed.

(** A code is read back as a cause exactly when it is the code of that
    cause; in particular 0 is read back as none. *)
Lemma cause_of_code_Some (code : Z) (c : load_failure) :
  cause_of_code code = Some c <-> code = error_code c.
Proof.
  split.
  - unfold cause_of_code, all_load_failures, find, error_code.
    repeat match goal with
    | |- context [?a =? code] =>
        destruct (Z.eqb_spec a code) as [<-|?];
        [intros [= <-]; reflexivity|]
    end.
    discriminate.
  - intros ->. apply cause_of_code_error_code.
Qed.


(** C5. [FPDFBitmap_Destroy] on a bitmap handle over a caller-supplied
    buffer releases the handle and nothing else: the caller's memory is the
    same afterwards, so the buffer is still allocated and holds the bytes it
    held before the call; the other bitmaps, the documents, the pages and
    the last-error code are untouched. *)
Theorem FPDFBitmap_Destroy_releases_handle_only w bitmap b contents :
  bitmaps w !! bitmap = Some b ->
  caller_memory w !! bm_first_scan b = Some contents ->
  let w' := FPDFBitmap_Destroy w bitmap in
  bitmaps w' !! bitmap = None /\
  caller_memory w' !! bm_first_scan b = Some contents /\
  caller_memory w' = caller_memory w /\
  (forall other, other <> bitmap -> bitmaps w' !! other = bitmaps w !! other) /\
  documents w' = documents w /\ pages w' = pages w /\
  last_error w' = last_error w.
Proof.
  intros Hb Hmem. cbn.
  split; [apply lookup_delete_eq|].
  split; [exact Hmem|].
  split; [reflexivity|].
  split; [|done].
  intros other Hne. by apply lookup_delete_ne.
Qed.


(** C7. For every bitmap created by [FPDFBitmap_CreateEx] with the buffer
    pointer [first_scan] and the row stride [stride], [FPDFBitmap_GetBuffer]
    on the new handle returns exactly [first_scan] and
    [FPDFBitmap_GetStride] returns exactly [stride]. *)
Theorem FPDFBitmap_CreateEx_accessors_roundtrip
    w width height format first_scan stride :
  let r := FPDFBitmap_CreateEx w width height format first_scan stride in
  FPDFBitmap_GetBuffer r.2 r.1 = first_scan /\
  FPDFBitmap_GetStride r.2 r.1 = stride.
Proof.
  cbn. unfold FPDFBitmap_GetBuffer, FPDFBitmap_GetStride; cbn.
  by rewrite lookup_insert_eq.
Qed.

End Binding.

(** ** The claims about the declarations *)

(** C8. The pixel-format enumeration is closed: its enumerators are exactly
    Unknown = 0, Gray = 1, BGR = 2, BGRx = 3 and BGRA = 4, and an integer is
    the value of one of them exactly when it lies between 0 and 4. *)
Theorem pixel_format_enum_closed :
  FPDFBitmap_Unknown = 0 /\ FPDFBitmap_Gray = 1 /\ FPDFBitmap_BGR = 2 /\
  FPDFBitmap_BGRx = 3 /\ FPDFBitmap_BGRA = 4 /\
  map snd pixel_format_enum = [0; 1; 2; 3; 4] /\
  map fst pixel_format_enum =
    ["FPDFBitmap_Unknown"; "FPDFBitmap_Gray"; "FPDFBitmap_BGR";
     "FPDFBitmap_BGRx"; "FPDFBitmap_BGRA"]%string /\
  forall z, enum_member pixel_format_enum z = (0 <=? z) && (z <=? 4).
Proof.
  repeat (split; [reflexivity|]).
  intros z. unfold enum_member. cbn.
  unfold FPDFBitmap_Unknown, FPDFBitmap_Gray, FPDFBitmap_BGR,
    FPDFBitmap_BGRx, FPDFBitmap_BGRA.
  destruct (Z.leb_spec 0 z), (Z.leb_spec z 4); cbn;
    repeat match goal with
    | |- context [?a =? ?b] => destruct (Z.eqb_spec a b); cbn
    end; try reflexivity; lia.
Qed.

(** C9. The render-flags enumeration defines the annotation-rendering
    option [FPDF_ANNOT] as the bit value 0x01: the integer 1, whose only set
    bit is bit 0. *)
Theorem FPDF_ANNOT_is_bit_0x01 :
  FPDF_ANNOT = 0x01 /\
  enum_value render_flag_enum "FPDF_ANNOT" = Some 1 /\
  map fst render_flag_enum = ["FPDF_ANNOT"%string] /\
  forall n, Z.testbit FPDF_ANNOT n = (n =? 0).
Proof.
  repeat (split; [reflexivity|]).
  intros [|p|p]; [reflexivity | by destruct p | reflexivity].
Qed.

(** C10. In the declarations, the byte count of [FPDF_LoadMemDocument64] is
    a [size_t], which holds values above 2^31 - 1 in every data model, while
    the page index, the page count and the bitmap width, height and stride
    are all [int], whose values are exactly those from -2^31 to 2^31 - 1. *)
Theorem declared_size_is_size_t_and_counts_are_int (dm : Decl.data_model) :
  Decl.param_type Decl.FPDF_LoadMemDocument64 "size" = Some Decl.Tsize_t /\
  Decl.representable dm Decl.Tsize_t (2 ^ 31) = true /\
  Decl.representable dm Decl.Tsize_t (2 ^ 32 - 1) = true /\
  Decl.representable dm Decl.Tint (2 ^ 31) = false /\
  Decl.param_type Decl.FPDF_LoadPage "page_index" = Some Decl.Tint /\
  Decl.fn_ret Decl.FPDF_GetPageCount = Decl.Tint /\
  Decl.param_type Decl.FPDFBitmap_CreateEx "width" = Some Decl.Tint /\
  Decl.param_type Decl.FPDFBitmap_CreateEx "height" = Some Decl.Tint /\
  Decl.param_type Decl.FPDFBitmap_CreateEx "stride" = Some Decl.Tint /\
  forall v, Decl.representable dm Decl.Tint v =
            (- 2 ^ 31 <=? v) && (v <=? 2 ^ 31 - 1).
Proof.
  split; [reflexivity|].
  split; [by destruct dm|].
  split; [by destruct dm|].
  repeat (split; [reflexivity|]).
  intros v. reflexivity.
Qed.

(** ** Closed instances of the conditional theorems *)

(** A two-page document behind handle 7: page 1 loads, and 1 is below the
    page count. *)
Lemma FPDF_LoadPage_nonnull_iff_in_range_witness :
  let w := World unit {[7 := [tt; tt]]} ∅ ∅ 0 ∅ in
  documents unit w !! 7 = Some [tt; tt] /\
  ((FPDF_LoadPage unit w 7 1).1 <> NULL <->
   0 <= 1 < FPDF_GetPageCount unit w 7) /\
  (1 < 0 \/ FPDF_GetPageCount unit w 7 <= 1 ->
   (FPDF_LoadPage unit w 7 1).1 = NULL).
Proof.
  intros w. split; [reflexivity|].
  apply (FPDF_LoadPage_nonnull_iff_in_range unit w 7 [tt; tt] 1).
  reflexivity.
Defined.

(** A bitmap behind handle 9 over the caller's two-byte block at address
    4096. *)
Lemma FPDFBitmap_Destroy_releases_handle_only_witness :
  let b := BitmapInfo 2 1 FPDFBitmap_Gray 4096 2 in
  let w := World unit ∅ ∅ {[9 := b]} 0 {[4096 := [Byte.x0a; Byte.x0b]]} in
  let w' := FPDFBitmap_Destroy unit w 9 in
  bitmaps unit w !! 9 = Some b /\
  caller_memory unit w !! bm_first_scan b = Some [Byte.x0a; Byte.x0b] /\
  bitmaps unit w' !! 9 = None /\
  caller_memory unit w' !! bm_first_scan b = Some [Byte.x0a; Byte.x0b] /\
  caller_memory unit w' = caller_memory unit w /\
  (forall other, other <> 9 ->
     bitmaps unit w' !! other = bitmaps unit w !! other) /\
  documents unit w' = documents unit w /\ pages unit w' = pages unit w /\
  last_error unit w' = last_error unit w.
Proof.
  intros b w w'.
  split; [reflexivity|]. split; [reflexivity|].
  apply (FPDFBitmap_Destroy_releases_handle_only unit w 9 b
           [Byte.x0a; Byte.x0b]); reflexivity.
Defined.

(** ** Further facts read off the declarations *)

(** The only integer types of the header whose range depends on the data
    model are [unsigned long] and [size_t]. *)
Lemma model_independent_iff (t : Decl.ctype) :
  Decl.model_independent t <-> t <> Decl.Tulong /\ t <> Decl.Tsize_t.
Proof.
  split.
  - intros Hind. split; intros ->;
      specialize (Hind Decl.ILP32 Decl.LP64); discriminate Hind.
  - intros [Hul Hsz] dm1 dm2. destruct t; try reflexivity; congruence.
Qed.

(** The values of an [int] are those of 32 bits, two's complement. *)
Lemma representable_int_iff (dm : Decl.data_model) (v : Z) :
  Decl.representable dm Decl.Tint v = true <->
  -2147483648 <= v <= 2147483647.
Proof.
  unfold Decl.representable, Decl.int_range, Decl.int_bits.
  change (2 ^ (32 - 1)) with 2147483648.
  rewrite andb_true_iff, !Z.leb_le. lia.
Qed.

(** X1. A flags word that sets no bit other than the declared ones is
    either 0 or [FPDF_ANNOT]: with one flag declared, these are the only two
    flag combinations. *)
Theorem flags_without_undeclared_bits (flags : Z) :
  Z.land flags (Z.lnot FPDF_ANNOT) = 0 <-> flags = 0 \/ flags = FPDF_ANNOT.
Proof.
  unfold FPDF_ANNOT. rewrite <- Z.ldiff_land.
  change 1 with (Z.ones 1). rewrite Z.ldiff_ones_r by lia.
  rewrite Z.shiftr_div_pow2, Z.shiftl_mul_pow2 by lia.
  change (2 ^ 1) with 2. change (Z.ones 1) with 1.
  pose proof (Z.div_mod flags 2 ltac:(lia)) as Hdm.
  pose proof (Z.mod_pos_bound flags 2 ltac:(lia)) as Hb.
  lia.
Qed.

(** X2. Every enumerator of the two enumerations is a value of the [int]
    parameter that carries it ([format] of [FPDFBitmap_CreateEx], [flags] of
    [FPDF_RenderPageBitmap]) in every data model. *)
Theorem enumerators_fit_int_parameters (dm : Decl.data_model) (z : Z) :
  enum_member pixel_format_enum z = true \/
  enum_member render_flag_enum z = true ->
  Decl.param_type Decl.FPDFBitmap_CreateEx "format" = Some Decl.Tint /\
  Decl.param_type Decl.FPDF_RenderPageBitmap "flags" = Some Decl.Tint /\
  Decl.representable dm Decl.Tint z = true.
Proof.
  intros Hmem. split; [reflexivity|]. split; [reflexivity|].
  assert (0 <= z <= 4) as Hz.
  { unfold enum_member in Hmem. cbn in Hmem.
    unfold FPDFBitmap_Unknown, FPDFBitmap_Gray, FPDFBitmap_BGR,
      FPDFBitmap_BGRx, FPDFBitmap_BGRA, FPDF_ANNOT in Hmem.
    repeat match type of Hmem with
    | context [?a =? ?b] => destruct (Z.eqb_spec a b); [lia|]
    end.
    cbn in Hmem. destruct Hmem; discriminate. }
  apply representable_int_iff. lia.
Qed.

(** [unsigned long] and [size_t] do change range with the data model. *)
Lemma Tulong_model_dependent : ~ Decl.model_independent Decl.Tulong.
Proof. intros Hind. specialize (Hind Decl.ILP32 Decl.LP64). discriminate. Qed.

Lemma Tsize_t_model_dependent : ~ Decl.model_independent Decl.Tsize_t.
Proof. intros Hind. specialize (Hind Decl.ILP32 Decl.LP64). discriminate. Qed.

(** X3. Among all the functions the header declares, the return value of
    [FPDF_GetLastError] is the one return value whose integer range depends
    on the data model, and [size] of [FPDF_LoadMemDocument64] is the one
    such parameter: these two do depend on it, and every other integer that
    crosses the boundary has the same range in every data model. *)
Theorem model_dependent_integers_only_size_and_last_error :
  ("FPDF_GetLastError"%string, Decl.FPDF_GetLastError) ∈ Decl.declarations /\
  ~ Decl.model_independent (Decl.fn_ret Decl.FPDF_GetLastError) /\
  ("FPDF_LoadMemDocument64"%string, Decl.FPDF_LoadMemDocument64)
    ∈ Decl.declarations /\
  ("size"%string, Decl.Tsize_t)
    ∈ Decl.fn_params Decl.FPDF_LoadMemDocument64 /\
  ~ Decl.model_independent Decl.Tsize_t /\
  forall name p, (name, p) ∈ Decl.declarations ->
    (~ Decl.model_independent (Decl.fn_ret p) <->
     name = "FPDF_GetLastError"%string) /\
    (forall x t, (x, t) ∈ Decl.fn_params p ->
       (~ Decl.model_independent t <->
        name = "FPDF_LoadMemDocument64"%string /\ x = "size"%string)).
Proof.
  split; [unfold Decl.declarations; rewrite !elem_of_cons; auto 20|].
  split; [exact Tulong_model_dependent|].
  split; [unfold Decl.declarations; rewrite !elem_of_cons; auto 20|].
  split; [cbn; rewrite !elem_of_cons; auto|].
  split; [exact Tsize_t_model_dependent|].
  intros name p Hin. unfold Decl.declarations in Hin.
  repeat (apply elem_of_cons in Hin as [Heq|Hin];
    [injection Heq as -> ->; split;
      [ split;
        [ intros Hdep; first [reflexivity
            | exfalso; apply Hdep; apply model_independent_iff;
              split; discriminate]
        | intros Hname; first [discriminate Hname
            | exact Tulong_model_dependent] ]
      | intros x t Hx; cbn in Hx;
        repeat (apply elem_of_cons in Hx as [Hx|Hx];
          [injection Hx as -> ->; split;
            [ intros Hdep; first [split; reflexivity
                | exfalso; apply Hdep; apply model_independent_iff;
                  split; discriminate]
            | intros [Hname Hsize];
              first [discriminate Hname | discriminate Hsize
                | exact Tsize_t_model_dependent] ] | ]);
        by apply elem_of_nil in Hx ]
    | ]).
  by apply elem_of_nil in Hin.
Qed.

(** X4. The return type of [FPDF_GetLastError] is [unsigned long]; a code is
    a value of that type in every data model exactly when it lies between 0
    and 2^32 - 1, and the 64-bit model has codes above that. *)
Theorem last_error_portable_range (v : Z) :
  Decl.fn_ret Decl.FPDF_GetLastError = Decl.Tulong /\
  forallb (fun dm => Decl.representable dm Decl.Tulong v)
    Decl.all_data_models = (0 <=? v) && (v <=? 2 ^ 32 - 1) /\
  Decl.representable Decl.LP64 Decl.Tulong (2 ^ 32) = true.
Proof.
  split; [reflexivity|]. split; [|reflexivity].
  unfold Decl.representable; cbn.
  destruct (Z.leb_spec 0 v); cbn; [|reflexivity].
  destruct (Z.leb_spec v 4294967295), (Z.leb_spec v 18446744073709551615);
    cbn; first [reflexivity | lia].
Qed.

(** X5. Every pointer that a declared function takes or returns is a plain
    [void*], the one type behind the three handle typedefs and the pixel
    buffer, except the two read-only inputs of [FPDF_LoadMemDocument64]: the
    header gives documents, pages, bitmaps and buffers no distinct types. *)
Theorem pointers_are_untyped_handles name p :
  (name, p) ∈ Decl.declarations ->
  Decl.FPDF_DOCUMENT = Decl.FPDF_PAGE /\
  Decl.FPDF_PAGE = Decl.FPDF_BITMAP /\
  (forall pointee, Decl.fn_ret p = Decl.Tptr pointee ->
     Decl.fn_ret p = Decl.FPDF_BITMAP) /\
  (forall x pointee, (x, Decl.Tptr pointee) ∈ Decl.fn_params p ->
     Decl.Tptr pointee = Decl.FPDF_BITMAP \/
     name = "FPDF_LoadMemDocument64"%string /\
     (x = "data_buf"%string \/ x = "password"%string)).
Proof.
  intros Hin. split; [reflexivity|]. split; [reflexivity|].
  unfold Decl.declarations in Hin.
  repeat (apply elem_of_cons in Hin as [Heq|Hin];
    [injection Heq as -> ->; split;
      [ intros pointee Hret; first [reflexivity | discriminate Hret]
      | intros x pointee Hx; cbn in Hx;
        repeat (apply elem_of_cons in Hx as [Hx|Hx];
          [first [discriminate Hx
             | injection Hx as -> ->;
               first [left; reflexivity | right; split; [reflexivity|];
                      first [left; reflexivity | right; reflexivity]]] | ]);
        by apply elem_of_nil in Hx ]
    | ]).
  by apply elem_of_nil in Hin.
Qed.

(** The format value 4 of the first enumeration, under LP64. *)
Lemma enumerators_fit_int_parameters_witness :
  (enum_member pixel_format_enum FPDFBitmap_BGRA = true \/
   enum_member render_flag_enum FPDFBitmap_BGRA = true) /\
  Decl.param_type Decl.FPDFBitmap_CreateEx "format" = Some Decl.Tint /\
  Decl.param_type Decl.FPDF_RenderPageBitmap "flags" = Some Decl.Tint /\
  Decl.representable Decl.LP64 Decl.Tint FPDFBitmap_BGRA = true.
Proof.
  assert (Hmem : enum_member pixel_format_enum FPDFBitmap_BGRA = true \/
                 enum_member render_flag_enum FPDFBitmap_BGRA = true)
    by (left; reflexivity).
  split; [exact Hmem|].
  exact (enumerators_fit_int_parameters Decl.LP64 FPDFBitmap_BGRA Hmem).
Defined.

(** The last declaration of the header, with its two handle parameters. *)
Lemma pointers_are_untyped_handles_witness :
  ("FPDF_RenderPageBitmap"%string, Decl.FPDF_RenderPageBitmap)
    ∈ Decl.declarations /\
  Decl.FPDF_DOCUMENT = Decl.FPDF_PAGE /\
  Decl.FPDF_PAGE = Decl.FPDF_BITMAP /\
  (forall pointee,
     Decl.fn_ret Decl.FPDF_RenderPageBitmap = Decl.Tptr pointee ->
     Decl.fn_ret Decl.FPDF_RenderPageBitmap = Decl.FPDF_BITMAP) /\
  (forall x pointee,
     (x, Decl.Tptr pointee) ∈ Decl.fn_params Decl.FPDF_RenderPageBitmap ->
     Decl.Tptr pointee = Decl.FPDF_BITMAP \/
     "FPDF_RenderPageBitmap"%string = "FPDF_LoadMemDocument64"%string /\
     (x = "data_buf"%string \/ x = "password"%string)).
Proof.
  assert (Hin : ("FPDF_RenderPageBitmap"%string, Decl.FPDF_RenderPageBitmap)
                  ∈ Decl.declarations).
  { unfold Decl.declarations. rewrite !elem_of_cons. auto 20. }
  split; [exact Hin|].
  exact (pointers_are_untyped_handles _ _ Hin).
Defined.
